(** * ezBuildr template generators: a shallow embedding

    The repository holds two stand-alone Python scripts,
    [scripts/createLoanTemplate.py] and [scripts/createTestTemplate.py].
    Each one builds a python-docx [Document] by a fixed sequence of
    appends and attribute assignments, creates its output directory with
    [os.makedirs(..., exist_ok=True)], saves the document and prints a
    summary.

    The embedding keeps that shape.  A script is a computation in a small
    state-and-exception monad [Py] over a [World] holding the [doc] object,
    the file system and the trace of observable events.  Objects handed
    back by python-docx ([header], [run], [applicant_table], ...) are
    references into the document held by the world, so an assignment such
    as [run.bold = True] updates the document itself. *)

From Stdlib Require Import Ascii String DecimalString DecimalNat.
From stdpp Require Import base option list strings gmap.

(** ** Strings *)

Definition nl : string := String (ascii_of_nat 10) EmptyString.

(** Python's [s * n]. *)
Fixpoint str_repeat (s : string) (n : nat) : string :=
  match n with
  | O => EmptyString
  | S k => s +:+ str_repeat s k
  end.

(** Python's [sep.join(parts)]. *)
Fixpoint str_join (sep : string) (parts : list string) : string :=
  match parts with
  | [] => EmptyString
  | [p] => p
  | p :: ps => p +:+ sep +:+ str_join sep ps
  end.


(** ** The python-docx object model, as far as the scripts touch it *)

Inductive WD_PARAGRAPH_ALIGNMENT := LEFT | CENTER | RIGHT | JUSTIFY.

Record RGBColor := MkRGB { rgb_r : nat; rgb_g : nat; rgb_b : nat }.

(** Lengths are English Metric Units; [Pt] is [docx.shared.Pt]. *)
Definition Length := N.
Definition Pt (points : N) : Length := (points * 12700)%N.

Record Font := MkFont {
  font_name  : option string;
  font_size  : option Length;
  font_color : option RGBColor
}.

Definition no_font : Font := MkFont None None None.

Record Run := MkRun {
  run_text : string;
  run_bold : option bool;
  run_font : Font
}.

Record Paragraph := MkParagraph {
  para_style     : option string;
  para_alignment : option WD_PARAGRAPH_ALIGNMENT;
  para_runs      : list Run
}.

Record Cell := MkCell { cell_paragraphs : list Paragraph }.

Record Table := MkTable {
  table_style : option string;
  table_rows  : list (list Cell)
}.

Inductive Block :=
  | BParagraph (p : Paragraph)
  | BTable (t : Table).

Record Document := MkDocument {
  normal_font : Font;          (* doc.styles['Normal'].font *)
  body        : list Block
}.

(** [Document()] : the default template has an empty body. *)
Definition new_document : Document := MkDocument no_font [].

Definition new_run (text : string) : Run := MkRun text None no_font.
Definition empty_paragraph : Paragraph := MkParagraph None None [].
Definition empty_cell : Cell := MkCell [empty_paragraph].

(** [Paragraph.text]: the run texts, concatenated. *)
Definition paragraph_text (p : Paragraph) : string :=
  foldr String.append EmptyString (run_text <$> para_runs p).

(** [_Cell.text]: the paragraph texts joined by a newline. *)
Definition cell_text (c : Cell) : string :=
  str_join nl (paragraph_text <$> cell_paragraphs c).

(** References to the objects python-docx hands back. *)
Inductive ParaRef :=
  | TopPara (block : nat)
  | CellPara (block row col para : nat).

Record RunRef := MkRunRef { rr_para : ParaRef; rr_index : nat }.

Definition TableRef := nat.

(** ** Dates *)

Inductive Month :=
  | January | February | March | April | May | June
  | July | August | September | October | November | December.

Record datetime := MkDatetime {
  year : nat; month : Month; day : nat;
  hour : nat; minute : nat; second : nat
}.

Definition month_name (m : Month) : string :=
  match m with
  | January => "January" | February => "February" | March => "March"
  | April => "April" | May => "May" | June => "June"
  | July => "July" | August => "August" | September => "September"
  | October => "October" | November => "November" | December => "December"
  end.

Definition decimal (n : nat) : string :=
  NilEmpty.string_of_uint (Nat.to_uint n).

(** [%d]: day of the month, zero-padded to two digits. *)
Definition two_digits (n : nat) : string :=
  if decide (n < 10) then "0" +:+ decimal n else decimal n.

(** [t.strftime("%B %d, %Y")] in the C locale. *)
Definition strftime_B_d_Y (t : datetime) : string :=
  month_name (month t) +:+ " " +:+ two_digits (day t) +:+ ", " +:+ decimal (year t).

(** ** Zip packages and the file system *)

(** A .docx file is a zip archive.  Each member of the archive carries a
    modification stamp; [zipfile.ZipFile.writestr], called with a member
    name, takes it from [time.localtime(time.time())[:6]], and the archive
    keeps it at two-second resolution. *)
Record DosTime := MkDosTime {
  dos_year : nat; dos_month : Month; dos_day : nat;
  dos_hour : nat; dos_minute : nat; dos_second2 : nat
}.

Definition dos_time (t : datetime) : DosTime :=
  MkDosTime (year t) (month t) (day t) (hour t) (minute t) (second t / 2).

(** What [doc.save] stores: the parts of the document, which are a
    function of the [Document] object, every member stamped with the time
    of writing. *)
Record Package := MkPackage {
  pkg_stamp    : DosTime;
  pkg_document : Document
}.

Inductive FileContent :=
  | Complete (pkg : Package)
  | Truncated.

Inductive Node :=
  | Dir (writable : bool)
  | File (writable : bool) (content : FileContent).

(** Normalised absolute paths (component lists from the root) key the
    nodes.  [disk_full] says that the device has no room left. *)
Record FS := MkFS {
  nodes     : gmap (list string) Node;
  disk_full : bool
}.

(** A path as the scripts handle it: the components between the
    separators; a leading empty component marks an absolute path. *)
Definition Path := list string.

Definition path_string (p : Path) : string :=
  match p with
  | [""] => "/"
  | _ => str_join "/" p
  end.

(** [os.path.join(a, b1, ..., bn)] for separator-free relative [bi]. *)
Definition os_path_join (a : Path) (bs : list string) : Path := a ++ bs.

(** [os.path.dirname]. *)
Definition os_path_dirname (p : Path) : Path := removelast p.

Fixpoint walk (stack : list string) (p : Path) : list string :=
  match p with
  | [] => stack
  | c :: cs =>
      if decide (c = "" ∨ c = ".") then walk stack cs
      else if decide (c = "..") then walk (tail stack) cs
      else walk (c :: stack) cs
  end.

(** Lexical resolution against the working directory. *)
Definition resolve (cwd : list string) (p : Path) : list string :=
  match p with
  | "" :: rest => reverse (walk [] rest)
  | _ => reverse (walk (reverse cwd) p)
  end.

(** ** Exceptions, events, worlds *)

Inductive Errno := EEXIST | ENOENT | ENOTDIR | EACCES | EISDIR | ENOSPC.

Inductive Exn :=
  | OSError (e : Errno) (filename : string)
  | IndexError (msg : string).

Inductive Event :=
  | EvMakedirs (path : string)
  | EvSave (path : string)
  | EvPrint (line : string).

Record World := MkWorld {
  w_doc   : Document;
  w_fs    : FS;
  w_trace : list Event
}.

(** What a script can observe of its surroundings. *)
Record Env := MkEnv {
  env_file_dir : Path;                 (* os.path.dirname(__file__) *)
  env_cwd      : list string;          (* working directory, normalised *)
  env_now      : datetime;             (* datetime.now() *)
  env_argv     : list string;          (* sys.argv[1:] *)
  env_environ  : gmap string string    (* os.environ *)
}.

Inductive Outcome (A : Type) :=
  | Returned (a : A) (w : World)
  | Raised (e : Exn) (w : World).
Arguments Returned {A} a w.
Arguments Raised {A} e w.

Definition Py (A : Type) : Type := World → Outcome A.

Definition ret {A} (a : A) : Py A := λ w, Returned a w.

Definition bind {A B} (m : Py A) (k : A → Py B) : Py B :=
  λ w, match m w with
       | Returned a w' => k a w'
       | Raised e w' => Raised e w'
       end.

Definition raise {A} (e : Exn) : Py A := λ w, Raised e w.

(** [try: m  except <handled>: handler]. *)
Definition try_except {A} (m : Py A) (handled : Exn → bool) (handler : Exn → Py A) : Py A :=
  λ w, match m w with
       | Returned a w' => Returned a w'
       | Raised e w' => if handled e then handler e w' else Raised e w'
       end.

Declare Scope py_scope.
Delimit Scope py_scope with py.
Notation "x <- m ;; k" := (bind m (λ x, k))
  (at level 100, m at next level, right associativity) : py_scope.
Notation "m ;; k" := (bind m (λ _, k))
  (at level 100, right associativity) : py_scope.
Local Open Scope py_scope.

(** ** python-docx operations *)

Definition get_doc : Py Document := λ w, Returned (w_doc w) w.

Definition put_doc (d : Document) : Py unit :=
  λ w, Returned () (MkWorld d (w_fs w) (w_trace w)).

Definition index_error {A} : Py A :=
  raise (IndexError "list index out of range").

Definition as_paragraph (b : Block) : option Paragraph :=
  match b with BParagraph p => Some p | BTable _ => None end.

Definition as_table (b : Block) : option Table :=
  match b with BTable t => Some t | BParagraph _ => None end.

Definition on_paragraph (f : Paragraph → Paragraph) (b : Block) : Block :=
  match b with BParagraph p => BParagraph (f p) | BTable _ => b end.

Definition on_table (f : Table → Table) (b : Block) : Block :=
  match b with BTable t => BTable (f t) | BParagraph _ => b end.

Definition alter_block (i : nat) (f : Block → Block) (d : Document) : Document :=
  MkDocument (normal_font d) (alter f i (body d)).

Definition alter_cell (r c : nat) (f : Cell → Cell) (t : Table) : Table :=
  MkTable (table_style t) (alter (alter f c) r (table_rows t)).

Definition lookup_table (d : Document) (t : TableRef) : option Table :=
  body d !! t ≫= as_table.

Definition lookup_cell (d : Document) (t : TableRef) (r c : nat) : option Cell :=
  tbl ← lookup_table d t; row ← table_rows tbl !! r; row !! c.

Definition lookup_para (d : Document) (p : ParaRef) : option Paragraph :=
  match p with
  | TopPara i => body d !! i ≫= as_paragraph
  | CellPara t r c i => cell ← lookup_cell d t r c; cell_paragraphs cell !! i
  end.

Definition lookup_run (d : Document) (r : RunRef) : option Run :=
  p ← lookup_para d (rr_para r); para_runs p !! rr_index r.

Definition alter_para (p : ParaRef) (f : Paragraph → Paragraph) (d : Document) : Document :=
  match p with
  | TopPara i => alter_block i (on_paragraph f) d
  | CellPara t r c i =>
      alter_block t
        (on_table (alter_cell r c (λ cell, MkCell (alter f i (cell_paragraphs cell))))) d
  end.

Definition alter_run (r : RunRef) (f : Run → Run) (d : Document) : Document :=
  alter_para (rr_para r)
    (λ p, MkParagraph (para_style p) (para_alignment p) (alter f (rr_index r) (para_runs p))) d.

(** Assignments through a reference; a dangling reference raises. *)
Definition update_para (p : ParaRef) (f : Paragraph → Paragraph) : Py unit :=
  d <- get_doc ;;
  match lookup_para d p with
  | Some _ => put_doc (alter_para p f d)
  | None => index_error
  end.

Definition update_run (r : RunRef) (f : Run → Run) : Py unit :=
  d <- get_doc ;;
  match lookup_run d r with
  | Some _ => put_doc (alter_run r f d)
  | None => index_error
  end.

(** [doc.styles['Normal'].font.name = ...] and [.size = ...]. *)
Definition set_normal_font_name (name : string) : Py unit :=
  d <- get_doc ;;
  let f := normal_font d in
  put_doc (MkDocument (MkFont (Some name) (font_size f) (font_color f)) (body d)).

Definition set_normal_font_size (size : Length) : Py unit :=
  d <- get_doc ;;
  let f := normal_font d in
  put_doc (MkDocument (MkFont (font_name f) (Some size) (font_color f)) (body d)).

(** [doc.add_paragraph(text='', style=None)]: a run is added only for a
    non-empty text. *)
Definition add_paragraph (text : string) (style : option string) : Py ParaRef :=
  d <- get_doc ;;
  let runs := if decide (text = "") then [] else [new_run text] in
  put_doc (MkDocument (normal_font d) (body d ++ [BParagraph (MkParagraph style None runs)])) ;;
  ret (TopPara (length (body d))).

(** [doc.add_heading(text, level)]. *)
Definition add_heading (text : string) (level : nat) : Py ParaRef :=
  add_paragraph text (Some (if decide (level = 0) then "Title" else "Heading " +:+ decimal level)).

(** [doc.add_table(rows, cols)]: every cell starts with one empty paragraph. *)
Definition add_table (rows cols : nat) : Py TableRef :=
  d <- get_doc ;;
  put_doc (MkDocument (normal_font d)
             (body d ++ [BTable (MkTable None (replicate rows (replicate cols empty_cell)))])) ;;
  ret (length (body d)).

(** [table.style = name]. *)
Definition set_table_style (t : TableRef) (name : string) : Py unit :=
  d <- get_doc ;;
  match lookup_table d t with
  | Some _ => put_doc (alter_block t (on_table (λ tbl, MkTable (Some name) (table_rows tbl))) d)
  | None => index_error
  end.

(** [table.rows[r].cells[c].text = text]: the cell content is replaced by
    one paragraph holding one run. *)
Definition set_cell_text (t : TableRef) (r c : nat) (text : string) : Py unit :=
  d <- get_doc ;;
  match lookup_cell d t r c with
  | Some _ =>
      put_doc (alter_block t
                 (on_table (alter_cell r c
                    (λ _, MkCell [MkParagraph None None [new_run text]]))) d)
  | None => index_error
  end.

(** [table.rows[r].cells[c].paragraphs[i]]. *)
Definition cell_paragraph (t : TableRef) (r c i : nat) : Py ParaRef :=
  d <- get_doc ;;
  match lookup_para d (CellPara t r c i) with
  | Some _ => ret (CellPara t r c i)
  | None => index_error
  end.

(** [paragraph.add_run(text)]. *)
Definition add_run (p : ParaRef) (text : string) : Py RunRef :=
  d <- get_doc ;;
  match lookup_para d p with
  | Some para =>
      put_doc (alter_para p
                 (λ q, MkParagraph (para_style q) (para_alignment q)
                         (para_runs q ++ [new_run text])) d) ;;
      ret (MkRunRef p (length (para_runs para)))
  | None => index_error
  end.

Definition set_alignment (p : ParaRef) (a : WD_PARAGRAPH_ALIGNMENT) : Py unit :=
  update_para p (λ q, MkParagraph (para_style q) (Some a) (para_runs q)).

Definition set_bold (r : RunRef) (b : bool) : Py unit :=
  update_run r (λ x, MkRun (run_text x) (Some b) (run_font x)).

Definition set_font_size (r : RunRef) (size : Length) : Py unit :=
  update_run r (λ x,
    MkRun (run_text x) (run_bold x)
      (MkFont (font_name (run_font x)) (Some size) (font_color (run_font x)))).

Definition set_font_color (r : RunRef) (c : RGBColor) : Py unit :=
  update_run r (λ x,
    MkRun (run_text x) (run_bold x)
      (MkFont (font_name (run_font x)) (font_size (run_font x)) (Some c))).

(** ** scripts/createLoanTemplate.py, lines 13-177: building the document *)

Definition grid_style : string := "Light Grid Accent 1".

Definition loan_build (env : Env) : Py unit :=
  put_doc new_document ;;
  set_normal_font_name "Calibri" ;;
  set_normal_font_size (Pt 11) ;;
  (* header / letterhead *)
  header <- add_paragraph "" None ;;
  set_alignment header CENTER ;;
  run <- add_run header "FINANCIAL SERVICES COMPANY" ;;
  set_bold run true ;;
  set_font_size run (Pt 16) ;;
  set_font_color run (MkRGB 0 51 102) ;;
  header2 <- add_paragraph "" None ;;
  set_alignment header2 CENTER ;;
  run2 <- add_run header2 ("123 Main Street • Suite 500 • Anytown, ST 12345" +:+ nl) ;;
  set_font_size run2 (Pt 9) ;;
  run3 <- add_run header2 "Phone: (555) 123-4567 • Email: loans@financialservices.com" ;;
  set_font_size run3 (Pt 9) ;;
  add_paragraph (str_repeat "_" 80) None ;;
  (* date and reference *)
  add_paragraph "" None ;;
  date_para <- add_paragraph ("Date: " +:+ strftime_B_d_Y (env_now env)) None ;;
  set_alignment date_para RIGHT ;;
  add_paragraph "" None ;;
  (* applicant information *)
  title <- add_heading "LOAN APPLICATION SUMMARY" 1 ;;
  set_alignment title CENTER ;;
  add_paragraph "" None ;;
  add_heading "Applicant Information" 2 ;;
  applicant_table <- add_table 5 2 ;;
  set_table_style applicant_table grid_style ;;
  set_cell_text applicant_table 0 0 "Full Name:" ;;
  set_cell_text applicant_table 0 1 "{{firstName}} {{lastName}}" ;;
  set_cell_text applicant_table 1 0 "Email Address:" ;;
  set_cell_text applicant_table 1 1 "{{email}}" ;;
  set_cell_text applicant_table 2 0 "Phone Number:" ;;
  set_cell_text applicant_table 2 1 "{{phone}}" ;;
  set_cell_text applicant_table 3 0 "Date of Birth:" ;;
  set_cell_text applicant_table 3 1 "{{dateOfBirth}}" ;;
  set_cell_text applicant_table 4 0 "SSN (last 4 digits):" ;;
  set_cell_text applicant_table 4 1 "XXX-XX-{{ssn}}" ;;
  add_paragraph "" None ;;
  (* employment information *)
  add_heading "Employment Information" 2 ;;
  employment_table <- add_table 4 2 ;;
  set_table_style employment_table grid_style ;;
  set_cell_text employment_table 0 0 "Employment Status:" ;;
  set_cell_text employment_table 0 1 "{{employmentStatus}}" ;;
  set_cell_text employment_table 1 0 "Employer Name:" ;;
  set_cell_text employment_table 1 1 "{{employerName}}" ;;
  set_cell_text employment_table 2 0 "Job Title:" ;;
  set_cell_text employment_table 2 1 "{{jobTitle}}" ;;
  set_cell_text employment_table 3 0 "Annual Income:" ;;
  set_cell_text employment_table 3 1 "${{annualIncome}}" ;;
  add_paragraph "" None ;;
  (* loan request details *)
  add_heading "Loan Request Details" 2 ;;
  loan_table <- add_table 3 2 ;;
  set_table_style loan_table grid_style ;;
  set_cell_text loan_table 0 0 "Requested Amount:" ;;
  amount_para <- cell_paragraph loan_table 0 1 0 ;;
  run <- add_run amount_para "${{loanAmount}}" ;;
  set_bold run true ;;
  set_font_size run (Pt 12) ;;
  set_font_color run (MkRGB 0 102 0) ;;
  set_cell_text loan_table 1 0 "Loan Purpose:" ;;
  set_cell_text loan_table 1 1 "{{loanPurpose}}" ;;
  set_cell_text loan_table 2 0 "Preferred Term:" ;;
  set_cell_text loan_table 2 1 "{{loanTerm}}" ;;
  add_paragraph "" None ;;
  (* financial analysis *)
  add_heading "Financial Analysis" 2 ;;
  analysis_table <- add_table 3 2 ;;
  set_table_style analysis_table grid_style ;;
  set_cell_text analysis_table 0 0 "Monthly Income:" ;;
  set_cell_text analysis_table 0 1 "${{debtToIncomeRatio.monthlyIncome}}" ;;
  set_cell_text analysis_table 1 0 "Monthly Debt Payments:" ;;
  set_cell_text analysis_table 1 1 "${{monthlyDebt}}" ;;
  set_cell_text analysis_table 2 0 "Debt-to-Income Ratio:" ;;
  set_cell_text analysis_table 2 1 "{{debtToIncomeRatio.ratio}}% ({{debtToIncomeRatio.status}})" ;;
  add_paragraph "" None ;;
  (* footer / disclaimer *)
  add_paragraph (str_repeat "_" 80) None ;;
  add_paragraph "" None ;;
  disclaimer <- add_paragraph "" None ;;
  set_alignment disclaimer CENTER ;;
  run <- add_run disclaimer "APPLICATION STATUS: PENDING REVIEW" ;;
  set_bold run true ;;
  set_font_size run (Pt 12) ;;
  set_font_color run (MkRGB 0 51 102) ;;
  add_paragraph "" None ;;
  next_steps <- add_paragraph "" None ;;
  label <- add_run next_steps ("Next Steps:" +:+ nl) ;;
  set_bold label true ;;
  add_run next_steps
    ("1. A loan officer will review your application within 2-3 business days" +:+ nl +:+
     "2. You may be contacted for additional documentation" +:+ nl +:+
     "3. Upon approval, you will receive loan terms and documentation to sign" +:+ nl) ;;
  add_paragraph "" None ;;
  footer_para <- add_paragraph "" None ;;
  set_alignment footer_para CENTER ;;
  footer_run <- add_run footer_para
    ("This document is confidential and intended solely for the named applicant." +:+ nl +:+
     "Please contact us at (555) 123-4567 with any questions.") ;;
  set_font_size footer_run (Pt 8) ;;
  set_font_color footer_run (MkRGB 128 128 128).

(** ** scripts/createTestTemplate.py, lines 11-49: building the document *)

Definition welcome_build (env : Env) : Py unit :=
  put_doc new_document ;;
  title <- add_heading "Welcome Letter" 1 ;;
  set_alignment title CENTER ;;
  add_paragraph "" None ;;
  add_paragraph "Dear {{firstName}} {{lastName}}," None ;;
  add_paragraph "" None ;;
  body <- add_paragraph
    "Thank you for completing our workflow! We have successfully received your information."
    None ;;
  add_paragraph "" None ;;
  add_paragraph "Your Details:" None ;;
  table <- add_table 3 2 ;;
  set_table_style table grid_style ;;
  set_cell_text table 0 0 "First Name:" ;;
  set_cell_text table 0 1 "{{firstName}}" ;;
  set_cell_text table 1 0 "Last Name:" ;;
  set_cell_text table 1 1 "{{lastName}}" ;;
  set_cell_text table 2 0 "Email:" ;;
  set_cell_text table 2 1 "{{email}}" ;;
  add_paragraph "" None ;;
  add_paragraph "We look forward to working with you!" None ;;
  add_paragraph "" None ;;
  closing <- add_paragraph "Best regards," None ;;
  add_paragraph "The VaultLogic Team" None ;;
  ret ().

(** ** The library calls the scripts make

    [os.mkdir] and the opening of the output file follow POSIX: the name is
    looked up first, then the parent directory is checked, then room on the
    device.  [os.makedirs] follows the function of that name in CPython's
    [os] module. *)

Definition with_fs (w : World) (fs : FS) : World :=
  MkWorld (w_doc w) fs (w_trace w).

Definition emit (ev : Event) : Py unit :=
  λ w, Returned () (MkWorld (w_doc w) (w_fs w) (w_trace w ++ [ev])).

(** [print(line)]. *)
Definition print (line : string) : Py unit := emit (EvPrint line).

Definition os_path_exists (cwd : list string) (p : Path) (fs : FS) : bool :=
  bool_decide (p ≠ []) && bool_decide (is_Some (nodes fs !! resolve cwd p)).

Definition os_path_isdir (cwd : list string) (p : Path) (fs : FS) : bool :=
  bool_decide (p ≠ []) &&
  match nodes fs !! resolve cwd p with
  | Some (Dir _) => true
  | _ => false
  end.

(** Why an entry cannot be created under the parent of [k], if so. *)
Definition parent_check (fs : FS) (k : list string) : option Errno :=
  match nodes fs !! removelast k with
  | None => Some ENOENT
  | Some (File _ _) => Some ENOTDIR
  | Some (Dir false) => Some EACCES
  | Some (Dir true) => None
  end.

(** [os.mkdir(p)]. *)
Definition os_mkdir (cwd : list string) (p : Path) : Py unit :=
  λ w,
    let fs := w_fs w in
    let k := resolve cwd p in
    let fail e := Raised (OSError e (path_string p)) w in
    if decide (p = []) then fail ENOENT
    else match nodes fs !! k with
         | Some _ => fail EEXIST
         | None =>
             match parent_check fs k with
             | Some e => fail e
             | None =>
                 if disk_full fs then fail ENOSPC
                 else Returned () (with_fs w (MkFS (<[k := Dir true]> (nodes fs)) (disk_full fs)))
             end
         end.

Definition is_FileExistsError (e : Exn) : bool :=
  match e with OSError EEXIST _ => true | _ => false end.

Definition is_OSError (e : Exn) : bool :=
  match e with OSError _ _ => true | IndexError _ => false end.

(** The body of [os.makedirs(name, exist_ok=True)] once [name] is split
    into [head] and [tail]; [recurse] is [makedirs(head, exist_ok=True)]. *)
Definition makedirs_body (cwd : list string) (recurse : Py unit)
    (head : Path) (tail : string) (name : Path) : Py unit :=
  λ w,
    let final :=
      try_except (os_mkdir cwd name) is_OSError
        (λ e, λ w', if os_path_isdir cwd name (w_fs w') then Returned () w' else Raised e w') in
    if bool_decide (head ≠ []) && bool_decide (tail ≠ "")
       && negb (os_path_exists cwd head (w_fs w))
    then
      (try_except recurse is_FileExistsError (λ _, ret ()) ;;
       if decide (tail = ".") then ret () else final) w
    else final w.

(** [os.makedirs] by recursion on the reversed component list, so that
    the head of a name is a structural part of it. *)
Fixpoint makedirs_rev (cwd : list string) (rname : list string) : Py unit :=
  match rname with
  | [] => makedirs_body cwd (ret ()) [] "" []
  | "" :: tail :: rhead =>
      (* if not tail: head, tail = path.split(head) *)
      makedirs_body cwd (makedirs_rev cwd rhead) (reverse rhead) tail (reverse rname)
  | tail :: rhead =>
      makedirs_body cwd (makedirs_rev cwd rhead) (reverse rhead) tail (reverse rname)
  end.

Definition os_makedirs (env : Env) (name : Path) : Py unit :=
  emit (EvMakedirs (path_string name)) ;;
  makedirs_rev (env_cwd env) (reverse name).

(** Writing a zip package at [p]: open for writing, which creates the
    file (the directory must take new entries) or truncates the one that
    is there (the file must be writable), then write.  Without room on the
    device the file stays truncated and the error propagates. *)
Definition zip_write (cwd : list string) (p : Path) (pkg : Package) : Py unit :=
  λ w,
    let fs := w_fs w in
    let k := resolve cwd p in
    let fail e := Raised (OSError e (path_string p)) w in
    let write :=
      if disk_full fs
      then Raised (OSError ENOSPC (path_string p))
             (with_fs w (MkFS (<[k := File true Truncated]> (nodes fs)) (disk_full fs)))
      else Returned ()
             (with_fs w (MkFS (<[k := File true (Complete pkg)]> (nodes fs)) (disk_full fs))) in
    if decide (p = []) then fail ENOENT
    else match nodes fs !! k with
         | Some (Dir _) => fail EISDIR
         | Some (File false _) => fail EACCES
         | Some (File true _) => write
         | None =>
             match parent_check fs k with
             | Some e => fail e
             | None => write
             end
         end.

(** [doc.save(path)]: python-docx hands the parts of the document to its
    zip writer, which opens [path] for writing and stores each part with
    [ZipFile.writestr]. *)
Definition doc_save (env : Env) (path : Path) : Py unit :=
  emit (EvSave (path_string path)) ;;
  d <- get_doc ;;
  zip_write (env_cwd env) path (MkPackage (dos_time (env_now env)) d).

(** ** The two scripts *)

(** scripts/createLoanTemplate.py *)
Definition loan_main (env : Env) : Py unit :=
  loan_build env ;;
  let output_dir := os_path_join (env_file_dir env) [".."; "server"; "files"; "templates"] in
  os_makedirs env output_dir ;;
  let output_path := os_path_join output_dir ["loan-application-summary.docx"] in
  doc_save env output_path ;;
  print ("[OK] Template created: " +:+ path_string output_path) ;;
  print (nl +:+ "Template includes the following placeholders:") ;;
  print "  - {{firstName}}, {{lastName}}" ;;
  print "  - {{email}}, {{phone}}, {{dateOfBirth}}, {{ssn}}" ;;
  print "  - {{employmentStatus}}, {{employerName}}, {{jobTitle}}" ;;
  print "  - {{annualIncome}}, {{monthlyDebt}}" ;;
  print "  - {{loanAmount}}, {{loanPurpose}}, {{loanTerm}}" ;;
  print "  - {{debtToIncomeRatio.ratio}}, {{debtToIncomeRatio.status}}, {{debtToIncomeRatio.monthlyIncome}}" ;;
  print (nl +:+ "Template ready for use!").

(** scripts/createTestTemplate.py *)
Definition welcome_main (env : Env) : Py unit :=
  welcome_build env ;;
  let output_path :=
    os_path_join (env_file_dir env) [".."; "uploads"; "templates"; "welcome-letter.docx"] in
  os_makedirs env (os_path_dirname output_path) ;;
  doc_save env output_path ;;
  print ("Template created: " +:+ path_string output_path) ;;
  print "Template includes placeholders: {{firstName}}, {{lastName}}, {{email}}".

(** ** Running a script as a process *)

Inductive Generator := LoanTemplate | WelcomeLetter.

Definition main (g : Generator) : Env → Py unit :=
  match g with
  | LoanTemplate => loan_main
  | WelcomeLetter => welcome_main
  end.

Definition errno_number (e : Errno) : nat :=
  match e with
  | EEXIST => 17 | ENOENT => 2 | ENOTDIR => 20 | EACCES => 13 | EISDIR => 21 | ENOSPC => 28
  end.

Definition strerror (e : Errno) : string :=
  match e with
  | EEXIST => "File exists"
  | ENOENT => "No such file or directory"
  | ENOTDIR => "Not a directory"
  | EACCES => "Permission denied"
  | EISDIR => "Is a directory"
  | ENOSPC => "No space left on device"
  end.

Definition exception_class (e : Exn) : string :=
  match e with
  | OSError EEXIST _ => "FileExistsError"
  | OSError ENOENT _ => "FileNotFoundError"
  | OSError ENOTDIR _ => "NotADirectoryError"
  | OSError EACCES _ => "PermissionError"
  | OSError EISDIR _ => "IsADirectoryError"
  | OSError ENOSPC _ => "OSError"
  | IndexError _ => "IndexError"
  end.

(** The last line of the traceback the interpreter writes to stderr. *)
Definition diagnostic (e : Exn) : string :=
  match e with
  | OSError n f =>
      exception_class e +:+ ": [Errno " +:+ decimal (errno_number n) +:+ "] "
        +:+ strerror n +:+ ": '" +:+ f +:+ "'"
  | IndexError m => "IndexError: " +:+ m
  end.

Record Process := MkProcess {
  exit_status : nat;
  stdout      : list string;
  stderr      : list string;
  trace       : list Event;
  final_fs    : FS
}.

Definition printed (evs : list Event) : list string :=
  omap (λ ev, match ev with EvPrint l => Some l | _ => None end) evs.

Definition initial_world (fs : FS) : World := MkWorld new_document fs [].

(** An uncaught exception ends the interpreter with status 1 after the
    traceback is written; otherwise the status is 0. *)
Definition crashed (e : Exn) (w : World) : Process :=
  MkProcess 1 (printed (w_trace w))
    ["Traceback (most recent call last):"; diagnostic e] (w_trace w) (w_fs w).

Definition run (g : Generator) (env : Env) (fs : FS) : Process :=
  match main g env (initial_world fs) with
  | Returned _ w => MkProcess 0 (printed (w_trace w)) [] (w_trace w) (w_fs w)
  | Raised e w => crashed e w
  end.

(** ** Reading a document back *)

(** Placeholder tokens of a text: the names between a [{{] and the next
    [}}], left to right.  [inside] holds the name read so far. *)
Fixpoint scan_tokens (inside : option string) (s : string) : list string :=
  match s with
  | EmptyString => []
  | String c rest =>
      match rest with
      | EmptyString => []
      | String c' rest' =>
          match inside with
          | None =>
              if Ascii.eqb c "{" && Ascii.eqb c' "{"
              then scan_tokens (Some EmptyString) rest'
              else scan_tokens None rest
          | Some name =>
              if Ascii.eqb c "}" && Ascii.eqb c' "}"
              then name :: scan_tokens None rest'
              else scan_tokens (Some (name +:+ String c EmptyString)) rest
          end
      end
  end.

Definition tokens_of (s : string) : list string := scan_tokens None s.

(** A downstream filler: every [{{name}}] is replaced by [σ name], every
    other character is copied. *)
Fixpoint fill_from (σ : string → string) (inside : option string) (s : string) : string :=
  match s with
  | EmptyString =>
      match inside with
      | None => EmptyString
      | Some name => "{{" +:+ name
      end
  | String c rest =>
      match inside with
      | None =>
          match rest with
          | String c' rest' =>
              if Ascii.eqb c "{" && Ascii.eqb c' "{"
              then fill_from σ (Some EmptyString) rest'
              else String c (fill_from σ None rest)
          | EmptyString => String c EmptyString
          end
      | Some name =>
          match rest with
          | String c' rest' =>
              if Ascii.eqb c "}" && Ascii.eqb c' "}"
              then σ name +:+ fill_from σ None rest'
              else fill_from σ (Some (name +:+ String c EmptyString)) rest
          | EmptyString => "{{" +:+ name +:+ String c EmptyString
          end
      end
  end.

Definition fill (σ : string → string) (s : string) : string := fill_from σ None s.

Definition table_paragraphs (t : Table) : list Paragraph :=
  row ← table_rows t; cell ← row; cell_paragraphs cell.

(** Every paragraph of the document, those inside table cells included. *)
Definition block_paragraphs (b : Block) : list Paragraph :=
  match b with
  | BParagraph p => [p]
  | BTable t => table_paragraphs t
  end.

Definition document_paragraphs (d : Document) : list Paragraph :=
  b ← body d; block_paragraphs b.

Definition document_tokens (d : Document) : list string :=
  p ← document_paragraphs d; tokens_of (paragraph_text p).

Definition token_set (d : Document) : gset string :=
  list_to_set (document_tokens d).

Definition tables (d : Document) : list Table := omap as_table (body d).

(** [len(table.rows)] and [len(table.columns)]. *)
Definition table_dims (t : Table) : nat * nat :=
  (length (table_rows t), default 0 (length <$> head (table_rows t))).

Definition rectangular (t : Table) : Prop :=
  Forall (λ row, length row = (table_dims t).2) (table_rows t).

(** Each table with the text of the block right before it. *)
Fixpoint labelled_tables (prev : string) (bs : list Block) : list (string * (nat * nat)) :=
  match bs with
  | [] => []
  | BParagraph p :: rest => labelled_tables (paragraph_text p) rest
  | BTable t :: rest => (prev, table_dims t) :: labelled_tables EmptyString rest
  end.

(** [doc.tables[t].rows[r].cells[c]] *)
Definition table_cell (d : Document) (t r c : nat) : option Cell :=
  tbl ← tables d !! t; row ← table_rows tbl !! r; row !! c.

(** ** The document each generator builds *)

Definition build (g : Generator) : Env → Py unit :=
  match g with
  | LoanTemplate => loan_build
  | WelcomeLetter => welcome_build
  end.

Definition built_document (g : Generator) (env : Env) : Document :=
  match build g env (initial_world (MkFS ∅ false)) with
  | Returned _ w => w_doc w
  | Raised _ w => w_doc w
  end.

Arguments built_document : simpl never.

Abbreviation loan_document := (built_document LoanTemplate).
Abbreviation welcome_document := (built_document WelcomeLetter).

(** The date line of the loan template. *)
Definition date_paragraph (t : datetime) : Paragraph :=
  MkParagraph None (Some RIGHT) [new_run ("Date: " +:+ strftime_B_d_Y t)].

Definition loan_placeholders : gset string :=
  {[ "firstName"; "lastName"; "email"; "phone"; "dateOfBirth"; "ssn";
     "employmentStatus"; "employerName"; "jobTitle"; "annualIncome";
     "monthlyDebt"; "loanAmount"; "loanPurpose"; "loanTerm";
     "debtToIncomeRatio.ratio"; "debtToIncomeRatio.status";
     "debtToIncomeRatio.monthlyIncome" ]}.

Definition welcome_placeholders : gset string :=
  {[ "firstName"; "lastName"; "email" ]}.

(** ** Predicates used in the statements *)

Fixpoint brace_free (s : string) : bool :=
  match s with
  | EmptyString => true
  | String c rest => negb (Ascii.eqb c "{") && brace_free rest
  end.

(** ** Proof automation for the built documents *)

(** Closed decidable goals, settled by evaluating their decision. *)
Ltac decide_by_vm := apply (bool_decide_unpack _); vm_compute; exact I.

(** Unfold a build down to its date text, which is the only part that
    is not a literal. *)
Ltac expose_date env :=
  unfold built_document, build, loan_build, welcome_build, date_paragraph;
  generalize (strftime_B_d_Y (env_now env)); intros ?.

(** ** Colours and cell texts *)


Definition cell_text_at (d : Document) (t r c : nat) : option string :=
  cell_text <$> table_cell d t r c.

(** ** Path components *)

(** A component that names an entry: neither empty nor [.] nor [..]. *)
Definition regular (n : string) : Prop := n ≠ "" ∧ n ≠ "." ∧ n ≠ "..".

(** ** Directories along a path *)



(** ** Frames of the file-system calls *)

Definition outcome_world {A} (o : Outcome A) : World :=
  match o with
  | Returned _ w => w
  | Raised _ w => w
  end.

(** [m'] has everything [m] has, plus possibly new writable directories. *)
Definition fs_extends (m m' : gmap (list string) Node) : Prop :=
  ∀ k, m' !! k = m !! k ∨ (m !! k = None ∧ m' !! k = Some (Dir true)).

(** Between [w] and [w'] only directories were entered. *)
Definition dirs_only (w w' : World) : Prop :=
  w_doc w' = w_doc w ∧ w_trace w' = w_trace w
  ∧ disk_full (w_fs w') = disk_full (w_fs w)
  ∧ fs_extends (nodes (w_fs w)) (nodes (w_fs w')).

Definition preserves {A} (c : Py A) : Prop :=
  ∀ w, dirs_only w (outcome_world (c w)).

(** ** Output locations and report *)

Definition output_dir (g : Generator) (env : Env) : Path :=
  match g with
  | LoanTemplate =>
      os_path_join (env_file_dir env) [".."; "server"; "files"; "templates"]
  | WelcomeLetter =>
      os_path_dirname
        (os_path_join (env_file_dir env)
           [".."; "uploads"; "templates"; "welcome-letter.docx"])
  end.

Definition output_path (g : Generator) (env : Env) : Path :=
  match g with
  | LoanTemplate => os_path_join (output_dir LoanTemplate env) ["loan-application-summary.docx"]
  | WelcomeLetter =>
      os_path_join (env_file_dir env) [".."; "uploads"; "templates"; "welcome-letter.docx"]
  end.

(** The lines the generator prints once the document is saved. *)
Definition report_lines (g : Generator) (env : Env) : list string :=
  match g with
  | LoanTemplate =>
      [ "[OK] Template created: " +:+ path_string (output_path LoanTemplate env);
        nl +:+ "Template includes the following placeholders:";
        "  - {{firstName}}, {{lastName}}";
        "  - {{email}}, {{phone}}, {{dateOfBirth}}, {{ssn}}";
        "  - {{employmentStatus}}, {{employerName}}, {{jobTitle}}";
        "  - {{annualIncome}}, {{monthlyDebt}}";
        "  - {{loanAmount}}, {{loanPurpose}}, {{loanTerm}}";
        "  - {{debtToIncomeRatio.ratio}}, {{debtToIncomeRatio.status}}, {{debtToIncomeRatio.monthlyIncome}}";
        nl +:+ "Template ready for use!" ]
  | WelcomeLetter =>
      [ "Template created: " +:+ path_string (output_path WelcomeLetter env);
        "Template includes placeholders: {{firstName}}, {{lastName}}, {{email}}" ]
  end.

Definition built_world (g : Generator) (env : Env) (fs : FS) : World :=
  MkWorld (built_document g env) fs [].

(** ** Resolved output locations *)

Definition dir_names (g : Generator) : list string :=
  match g with
  | LoanTemplate => ["server"; "files"; "templates"]
  | WelcomeLetter => ["uploads"; "templates"]
  end.

Definition file_name (g : Generator) : string :=
  match g with
  | LoanTemplate => "loan-application-summary.docx"
  | WelcomeLetter => "welcome-letter.docx"
  end.

(** The directory above the one that holds the script, resolved. *)
Definition base_dir (env : Env) : list string :=
  resolve (env_cwd env) (env_file_dir env ++ [".."]).

(** Resolved output directory and output file. *)
Definition target_dir (g : Generator) (env : Env) : list string :=
  resolve (env_cwd env) (output_dir g env).

Definition target_file (g : Generator) (env : Env) : list string :=
  resolve (env_cwd env) (output_path g env).

(** The package a run writes. *)
Definition saved_package (g : Generator) (env : Env) : Package :=
  MkPackage (dos_time (env_now env)) (built_document g env).




(** ** Sample inputs *)

(** An environment and two file systems used as concrete inputs: the
    script lives in [/repo/scripts], and nothing of the output tree
    exists yet. *)
Definition sample_env : Env :=
  MkEnv [""; "repo"; "scripts"] ["repo"]
    (MkDatetime 2026 November 3 17 27 0) [] ∅.

Definition sample_fs : FS :=
  MkFS (list_to_map [([], Dir true); (["repo"], Dir true);
                     (["repo"; "scripts"], Dir true)]) false.


(** ** Failures *)





(** ** Placeholders per generator *)

Definition placeholders (g : Generator) : gset string :=
  match g with
  | LoanTemplate => loan_placeholders
  | WelcomeLetter => welcome_placeholders
  end.


(** ** Days, and further sample inputs *)

Definition same_day (t1 t2 : datetime) : Prop :=
  year t1 = year t2 ∧ month t1 = month t2 ∧ day t1 = day t2.

(** One second later than [sample_env], and one day later. *)
Definition later_env : Env :=
  MkEnv [""; "repo"; "scripts"] ["repo"]
    (MkDatetime 2026 November 3 17 27 2) [] ∅.

Definition next_day_env : Env :=
  MkEnv [""; "repo"; "scripts"] ["repo"]
    (MkDatetime 2026 November 4 17 27 0) [] ∅.

(** ** Runs, cells and rows of the built documents *)

(** The tokens found run by run. *)
Definition tokens_by_run (p : Paragraph) : list string :=
  r ← para_runs p; tokens_of (run_text r).

(** No placeholder of the paragraph straddles two runs. *)
Definition unsplit (p : Paragraph) : bool :=
  bool_decide (tokens_of (paragraph_text p) = tokens_by_run p).

(** The cell holds one paragraph made of one run. *)
Definition one_run_cell (c : Cell) : bool :=
  match cell_paragraphs c with
  | [p] => match para_runs p with [_] => true | _ => false end
  | _ => false
  end.

Fixpoint ends_with (c : ascii) (s : string) : bool :=
  match s with
  | EmptyString => false
  | String a EmptyString => Ascii.eqb a c
  | String _ rest => ends_with c rest
  end.

(** A row of two cells: a label that ends with a colon and holds no
    placeholder, then a value that holds at least one. *)
Definition label_value_row (row : list Cell) : bool :=
  match row with
  | [label; value] =>
      ends_with ":" (cell_text label)
      && bool_decide (tokens_of (cell_text label) = [])
      && negb (bool_decide (tokens_of (cell_text value) = []))
  | _ => false
  end.

(** The tokens of the paragraphs that are not inside a table. *)
Definition top_level_tokens (d : Document) : list string :=
  p ← omap as_paragraph (body d); tokens_of (paragraph_text p).

(** ** Characters a text does not hold *)

Fixpoint lacks (c : ascii) (s : string) : bool :=
  match s with
  | EmptyString => true
  | String a rest => negb (Ascii.eqb a c) && lacks c rest
  end.

(** ** Entries along a path *)





(** ** Absolute paths *)

(** [os.path.isabs]: the path starts at the root. *)
Definition os_path_isabs (p : Path) : Prop := head p = Some "".

(** ** A full device *)


(** ** Exceptions a computation may raise *)



(** * Lemmas and theorems *)

(** ** Facts about texts without an opening brace *)

Lemma append_cons (c : ascii) (s t : string) :
  String c s +:+ t = String c (s +:+ t).
Proof. reflexivity. Qed.

Lemma append_empty_r (s : string) : s +:+ "" = s.
Proof. induction s as [|c s IH]; [done | by rewrite append_cons, IH]. Qed.

Lemma brace_free_app (s t : string) :
  brace_free (s +:+ t) = brace_free s && brace_free t.
Proof.
  induction s as [|c s IH]; [done|].
  rewrite append_cons. simpl. rewrite IH. by destruct (Ascii.eqb c "{").
Qed.

Lemma scan_brace_free (s : string) :
  brace_free s = true → scan_tokens None s = [].
Proof.
  induction s as [|c s IH]; simpl; [done|].
  intros [Hc Hs]%andb_prop.
  destruct s as [|c' s']; [done|].
  apply negb_true_iff in Hc. rewrite Hc. simpl. by apply IH.
Qed.

Lemma brace_free_uint (u : Decimal.uint) :
  brace_free (NilEmpty.string_of_uint u) = true.
Proof. induction u; simpl; auto. Qed.

Lemma brace_free_decimal (n : nat) : brace_free (decimal n) = true.
Proof. apply brace_free_uint. Qed.

Lemma brace_free_two_digits (n : nat) : brace_free (two_digits n) = true.
Proof.
  unfold two_digits. case_decide; [|apply brace_free_decimal].
  rewrite brace_free_app, brace_free_decimal. done.
Qed.

Lemma brace_free_month (m : Month) : brace_free (month_name m) = true.
Proof. by destruct m. Qed.

Lemma brace_free_strftime (t : datetime) : brace_free (strftime_B_d_Y t) = true.
Proof.
  unfold strftime_B_d_Y.
  rewrite !brace_free_app, brace_free_month, brace_free_two_digits, brace_free_decimal.
  done.
Qed.

Lemma date_paragraph_text (t : datetime) :
  paragraph_text (date_paragraph t) = "Date: " +:+ strftime_B_d_Y t.
Proof.
  change (paragraph_text (date_paragraph t))
    with (("Date: " +:+ strftime_B_d_Y t) +:+ "").
  apply append_empty_r.
Qed.

Lemma date_paragraph_tokens (t : datetime) :
  tokens_of (paragraph_text (date_paragraph t)) = [].
Proof.
  rewrite date_paragraph_text. apply scan_brace_free.
  by rewrite brace_free_app, brace_free_strftime.
Qed.

(** ** The built documents *)

(** The welcome letter is the same document in every environment. *)
Lemma welcome_document_constant (env1 env2 : Env) :
  welcome_document env1 = welcome_document env2.
Proof. vm_compute. reflexivity. Qed.

(** The fifth block of the loan template is the date line. *)
Lemma loan_date_block (env : Env) :
  body (loan_document env) !! 4 = Some (BParagraph (date_paragraph (env_now env))).
Proof. expose_date env. vm_compute. reflexivity. Qed.

(** Two loan templates differ in the date line at most. *)
Lemma loan_document_up_to_date (env1 env2 : Env) :
  loan_document env1 =
  MkDocument (normal_font (loan_document env2))
    (<[4 := BParagraph (date_paragraph (env_now env1))]> (body (loan_document env2))).
Proof.
  unfold built_document, build, loan_build, date_paragraph.
  generalize (strftime_B_d_Y (env_now env1)) (strftime_B_d_Y (env_now env2)).
  intros s1 s2. vm_compute. reflexivity.
Qed.

Lemma loan_document_tokens (env : Env) :
  document_tokens (loan_document env) =
  tokens_of (paragraph_text (date_paragraph (env_now env))) ++
  [ "firstName"; "lastName"; "email"; "phone"; "dateOfBirth"; "ssn";
    "employmentStatus"; "employerName"; "jobTitle"; "annualIncome";
    "loanAmount"; "loanPurpose"; "loanTerm";
    "debtToIncomeRatio.monthlyIncome"; "monthlyDebt";
    "debtToIncomeRatio.ratio"; "debtToIncomeRatio.status" ].
Proof. expose_date env. vm_compute. reflexivity. Qed.

Lemma welcome_document_tokens (env : Env) :
  document_tokens (welcome_document env) =
  [ "firstName"; "lastName"; "firstName"; "lastName"; "email" ].
Proof. vm_compute. reflexivity. Qed.

(** C3.  The loan template holds exactly four tables, in this order and
    under these headings: Applicant Information with 5 rows and 2 columns,
    Employment Information with 4 and 2, Loan Request Details with 3 and 2,
    Financial Analysis with 3 and 2.  The welcome letter holds exactly one
    table, with 3 rows and 2 columns.  Every row of every table has as many
    cells as the table has columns. *)
Theorem C3_table_dimensions (env : Env) :
  labelled_tables "" (body (loan_document env)) =
    [ ("Applicant Information", (5, 2)); ("Employment Information", (4, 2));
      ("Loan Request Details", (3, 2)); ("Financial Analysis", (3, 2)) ]
  ∧ table_dims <$> tables (loan_document env) = [ (5, 2); (4, 2); (3, 2); (3, 2) ]
  ∧ table_dims <$> tables (welcome_document env) = [ (3, 2) ]
  ∧ Forall rectangular (tables (loan_document env))
  ∧ Forall rectangular (tables (welcome_document env)).
Proof.
  assert (Hl : ∃ ts, tables (loan_document env) = ts ∧
                     table_dims <$> ts = [ (5, 2); (4, 2); (3, 2); (3, 2) ] ∧
                     Forall rectangular ts).
  { expose_date env. eexists. split; [vm_compute; reflexivity|].
    split; [reflexivity|]. unfold rectangular. repeat constructor. }
  destruct Hl as (ts & -> & Hdims & Hrect).
  split; [expose_date env; vm_compute; reflexivity|].
  split; [exact Hdims|].
  split; [vm_compute; reflexivity|].
  split; [exact Hrect|].
  assert (Hw : ∃ ts, tables (welcome_document env) = ts ∧ Forall rectangular ts).
  { eexists. split; [vm_compute; reflexivity|]. unfold rectangular. repeat constructor. }
  by destruct Hw as (ts' & -> & Hrect').
Qed.

(** ** Styling and literal cell texts of the loan template *)

Example strftime_example :
  strftime_B_d_Y (MkDatetime 2026 November 3 17 27 0) = "November 03, 2026".
Proof. vm_compute. reflexivity. Qed.


Lemma loan_cell_texts (env : Env) :
  let d := loan_document env in
  cell_text_at d 0 4 1 = Some "XXX-XX-{{ssn}}"
  ∧ cell_text_at d 1 3 1 = Some "${{annualIncome}}"
  ∧ cell_text_at d 2 0 1 = Some "${{loanAmount}}"
  ∧ cell_text_at d 3 0 1 = Some "${{debtToIncomeRatio.monthlyIncome}}"
  ∧ cell_text_at d 3 1 1 = Some "${{monthlyDebt}}"
  ∧ cell_text_at d 3 2 1 = Some "{{debtToIncomeRatio.ratio}}% ({{debtToIncomeRatio.status}})".
Proof.
  unfold cell_text_at. expose_date env.
  repeat split; vm_compute; reflexivity.
Qed.

(** C10.  In the loan template the SSN cell reads [XXX-XX-{{ssn}}], the
    annual-income, requested-amount, monthly-income and monthly-debt cells
    read a [$] followed by their token, and the debt-to-income cell reads
    [{{debtToIncomeRatio.ratio}}% ({{debtToIncomeRatio.status}})].  A filler
    that replaces each token by a value leaves the characters around the
    tokens as they are. *)
Theorem C10_tokens_inside_literal_text (env : Env) (σ : string → string) :
  let d := loan_document env in
  (cell_text_at d 0 4 1 = Some "XXX-XX-{{ssn}}"
   ∧ cell_text_at d 1 3 1 = Some "${{annualIncome}}"
   ∧ cell_text_at d 2 0 1 = Some "${{loanAmount}}"
   ∧ cell_text_at d 3 0 1 = Some "${{debtToIncomeRatio.monthlyIncome}}"
   ∧ cell_text_at d 3 1 1 = Some "${{monthlyDebt}}"
   ∧ cell_text_at d 3 2 1
       = Some "{{debtToIncomeRatio.ratio}}% ({{debtToIncomeRatio.status}})")
  ∧ (fill σ <$> cell_text_at d 0 4 1 = Some ("XXX-XX-" +:+ σ "ssn")
     ∧ fill σ <$> cell_text_at d 1 3 1 = Some ("$" +:+ σ "annualIncome")
     ∧ fill σ <$> cell_text_at d 2 0 1 = Some ("$" +:+ σ "loanAmount")
     ∧ fill σ <$> cell_text_at d 3 0 1 = Some ("$" +:+ σ "debtToIncomeRatio.monthlyIncome")
     ∧ fill σ <$> cell_text_at d 3 1 1 = Some ("$" +:+ σ "monthlyDebt")
     ∧ fill σ <$> cell_text_at d 3 2 1
         = Some (σ "debtToIncomeRatio.ratio" +:+ "% ("
                   +:+ σ "debtToIncomeRatio.status" +:+ ")")).
Proof.
  intros d. pose proof (loan_cell_texts env) as H. cbv zeta in H. fold d in H.
  split; [exact H|].
  destruct H as (-> & -> & -> & -> & -> & ->).
  unfold fill. simpl. rewrite ?append_empty_r. repeat split; reflexivity.
Qed.

(** ** Paths *)

Lemma walk_app (stack : list string) (p q : Path) :
  walk stack (p ++ q) = walk (walk stack p) q.
Proof.
  revert stack. induction p as [|c p IH]; intros stack; [done|].
  simpl. repeat case_decide; apply IH.
Qed.

Lemma walk_regular (stack : list string) (n : string) :
  regular n → walk stack [n] = n :: stack.
Proof.
  intros (H1 & H2 & H3). simpl.
  rewrite decide_False by (intros [?|?]; done).
  by rewrite decide_False.
Qed.

Lemma resolve_snoc (cwd : list string) (p : Path) (n : string) :
  regular n → resolve cwd (p ++ [n]) = resolve cwd p ++ [n].
Proof.
  intros Hn. pose proof Hn as (Hne & _).
  assert (Hstep : ∀ stack q, reverse (walk stack (q ++ [n])) = reverse (walk stack q) ++ [n]).
  { intros stack q. by rewrite walk_app, walk_regular, reverse_cons. }
  destruct p as [|c p].
  - unfold resolve. simpl app.
    destruct n as [|a n']; [done|]. apply (Hstep _ []).
  - unfold resolve. rewrite <- app_comm_cons.
    destruct c as [|a c'].
    + apply Hstep.
    + apply (Hstep _ (String a c' :: p)).
Qed.

Lemma resolve_app (cwd : list string) (p : Path) (names : list string) :
  Forall regular names → resolve cwd (p ++ names) = resolve cwd p ++ names.
Proof.
  induction names as [|x ns IH] using rev_ind; intros Hreg.
  - by rewrite !app_nil_r.
  - apply Forall_app in Hreg as [Hns Hx]. apply Forall_inv in Hx.
    rewrite !app_assoc. rewrite resolve_snoc; [|exact Hx]. by rewrite IH.
Qed.

(** ** Directory creation *)









Section makedirs.
Context (cwd : list string) (p : Path) (B : list string).
Hypothesis Hp : p ≠ [].
Hypothesis HB : resolve cwd p = B.

End makedirs.

(** ** What the file-system calls leave alone *)

Lemma fs_extends_refl (m : gmap (list string) Node) : fs_extends m m.
Proof. intros k. by left. Qed.

Lemma fs_extends_trans (m1 m2 m3 : gmap (list string) Node) :
  fs_extends m1 m2 → fs_extends m2 m3 → fs_extends m1 m3.
Proof.
  intros H12 H23 k. destruct (H12 k) as [E12|[N1 D2]], (H23 k) as [E23|[N2 D3]].
  - left. congruence.
  - right. split; congruence.
  - right. split; congruence.
  - congruence.
Qed.

Lemma dirs_only_refl (w : World) : dirs_only w w.
Proof. repeat split. apply fs_extends_refl. Qed.

Lemma dirs_only_trans (w1 w2 w3 : World) :
  dirs_only w1 w2 → dirs_only w2 w3 → dirs_only w1 w3.
Proof.
  intros (D12 & T12 & F12 & E12) (D23 & T23 & F23 & E23).
  repeat split; try congruence. by apply fs_extends_trans with (nodes (w_fs w2)).
Qed.

Lemma preserves_ret {A} (a : A) : preserves (ret a).
Proof. intros w. apply dirs_only_refl. Qed.

Lemma preserves_bind {A B} (c : Py A) (k : A → Py B) :
  preserves c → (∀ a, preserves (k a)) → preserves (bind c k).
Proof.
  intros Hc Hk w. unfold bind. specialize (Hc w).
  destruct (c w) as [a w'|e w']; simpl in *; [|done].
  apply dirs_only_trans with w'; [done|apply Hk].
Qed.

Lemma preserves_try_except {A} (c : Py A) (handled : Exn → bool) (handler : Exn → Py A) :
  preserves c → (∀ e, preserves (handler e)) → preserves (try_except c handled handler).
Proof.
  intros Hc Hh w. unfold try_except. specialize (Hc w).
  destruct (c w) as [a w'|e w']; simpl in *; [done|].
  destruct (handled e); [|done].
  apply dirs_only_trans with w'; [done|apply Hh].
Qed.

Lemma preserves_os_mkdir (cwd : list string) (p : Path) : preserves (os_mkdir cwd p).
Proof.
  intros [d [m full] tr]. unfold os_mkdir. simpl.
  case_decide; [apply dirs_only_refl|].
  destruct (m !! resolve cwd p) eqn:Hk; [apply dirs_only_refl|].
  destruct (parent_check _ _); [apply dirs_only_refl|].
  destruct full; [apply dirs_only_refl|]. simpl.
  repeat split. simpl. intros k.
  destruct (decide (resolve cwd p = k)) as [<-|Hne].
  - right. by rewrite lookup_insert_eq.
  - left. by rewrite lookup_insert_ne.
Qed.

Lemma preserves_makedirs_body (cwd : list string) (recurse : Py unit)
    (head : Path) (tail : string) (name : Path) :
  preserves recurse → preserves (makedirs_body cwd recurse head tail name).
Proof.
  intros Hrec.
  assert (Hfinal : preserves
    (try_except (os_mkdir cwd name) is_OSError
       (λ e w', if os_path_isdir cwd name (w_fs w') then Returned () w' else Raised e w'))).
  { apply preserves_try_except; [apply preserves_os_mkdir|].
    intros e w. destruct (os_path_isdir _ _ _); apply dirs_only_refl. }
  intros w. unfold makedirs_body.
  destruct (_ && _); [|apply Hfinal].
  apply preserves_bind.
  - apply preserves_try_except; [done|]. intros _. apply preserves_ret.
  - intros _. case_decide; [apply preserves_ret|apply Hfinal].
Qed.

Lemma preserves_makedirs_rev (cwd : list string) (rname : list string) :
  preserves (makedirs_rev cwd rname).
Proof.
  assert (H : ∀ n rname, length rname < n → preserves (makedirs_rev cwd rname)).
  { clear rname. induction n as [|n IH]; intros rname Hlen; [lia|].
    destruct rname as [|c rh].
    - apply preserves_makedirs_body, preserves_ret.
    - destruct c as [|a c'].
      + destruct rh as [|t rh'].
        * apply (preserves_makedirs_body cwd (makedirs_rev cwd [])), IH.
          simpl in *. lia.
        * apply (preserves_makedirs_body cwd (makedirs_rev cwd rh')), IH.
          simpl in *. lia.
      + apply (preserves_makedirs_body cwd (makedirs_rev cwd rh)), IH.
        simpl in *. lia. }
  apply (H (S (length rname))). lia.
Qed.



(** ** The steps of a run *)

Lemma printed_app (evs evs' : list Event) :
  printed (evs ++ evs') = printed evs ++ printed evs'.
Proof. unfold printed. apply omap_app. Qed.

Lemma printed_prints (lines : list string) : printed (EvPrint <$> lines) = lines.
Proof.
  induction lines as [|l ls IH]; [done|].
  change (l :: printed (EvPrint <$> ls) = l :: ls). by rewrite IH.
Qed.

(** A run is: build, [os.makedirs], [doc.save], then the report. *)

Lemma loan_build_returns (env : Env) (fs : FS) :
  loan_build env (initial_world fs) = Returned () (built_world LoanTemplate env fs).
Proof. unfold built_world. expose_date env. vm_compute. reflexivity. Qed.

Lemma welcome_build_returns (env : Env) (fs : FS) :
  welcome_build env (initial_world fs) = Returned () (built_world WelcomeLetter env fs).
Proof. vm_compute. reflexivity. Qed.

Lemma bind_returned {A B} (c : Py A) (k : A → Py B) (w w' : World) (a : A) :
  c w = Returned a w' → bind c k w = k a w'.
Proof. intros H. unfold bind. by rewrite H. Qed.

Lemma bind_raised {A B} (c : Py A) (k : A → Py B) (w w' : World) (e : Exn) :
  c w = Raised e w' → bind c k w = Raised e w'.
Proof. intros H. unfold bind. by rewrite H. Qed.

(** Each script is: build, [os.makedirs], [doc.save], then a report that
    prints [report_lines] and cannot fail. *)
Lemma main_shape (g : Generator) (env : Env) :
  ∃ report : Py unit,
    main g env
    = (build g env ;;
       os_makedirs env (output_dir g env) ;;
       doc_save env (output_path g env) ;;
       report)
    ∧ ∀ w, report w
           = Returned () (MkWorld (w_doc w) (w_fs w)
                            (w_trace w ++ (EvPrint <$> report_lines g env))).
Proof.
  destruct g; eexists;
    (split;
       [unfold main, build, loan_main, welcome_main, output_dir, output_path;
        reflexivity|]);
    intros [d fs tr]; unfold bind, print, emit; simpl;
    rewrite <- ?app_assoc; f_equal.
Qed.

Lemma build_initial (g : Generator) (env : Env) (fs : FS) :
  build g env (initial_world fs) = Returned () (built_world g env fs).
Proof. destruct g; [apply loan_build_returns|apply welcome_build_returns]. Qed.

(** A run is: build, [os.makedirs], [doc.save], then the report. *)
Lemma run_steps (g : Generator) (env : Env) (fs : FS) :
  run g env fs =
  match os_makedirs env (output_dir g env) (built_world g env fs) with
  | Raised e w => crashed e w
  | Returned _ w1 =>
      match doc_save env (output_path g env) w1 with
      | Raised e w => crashed e w
      | Returned _ w2 =>
          MkProcess 0 (printed (w_trace w2) ++ report_lines g env) []
            (w_trace w2 ++ (EvPrint <$> report_lines g env)) (w_fs w2)
      end
  end.
Proof.
  destruct (main_shape g env) as (report & Hmain & Hreport).
  unfold run. rewrite Hmain.
  erewrite bind_returned by apply build_initial.
  generalize (built_world g env fs). intros w0.
  destruct (os_makedirs env (output_dir g env) w0) as [[] w1|e w1] eqn:Hmk.
  - erewrite bind_returned by exact Hmk.
    destruct (doc_save env (output_path g env) w1) as [[] w2|e w2] eqn:Hsave.
    + erewrite bind_returned by exact Hsave.
      rewrite Hreport. simpl. by rewrite printed_app, printed_prints.
    + erewrite bind_raised by exact Hsave. reflexivity.
  - erewrite bind_raised by exact Hmk. reflexivity.
Qed.

(** ** Where the output goes *)

Lemma dir_names_regular (g : Generator) : Forall regular (dir_names g).
Proof. destruct g; repeat constructor; done. Qed.

Lemma file_name_regular (g : Generator) : regular (file_name g).
Proof. by destruct g. Qed.

Lemma output_dir_eq (g : Generator) (env : Env) :
  output_dir g env = (env_file_dir env ++ [".."]) ++ dir_names g.
Proof.
  destruct g; unfold output_dir, os_path_join, os_path_dirname; simpl.
  - by rewrite <- app_assoc.
  - rewrite removelast_app by done. simpl. by rewrite <- app_assoc.
Qed.

Lemma output_path_eq (g : Generator) (env : Env) :
  output_path g env = output_dir g env ++ [file_name g].
Proof.
  rewrite output_dir_eq.
  destruct g; unfold output_path, output_dir, os_path_join; simpl;
    by rewrite <- !app_assoc.
Qed.

Lemma target_dir_eq (g : Generator) (env : Env) :
  target_dir g env = base_dir env ++ dir_names g.
Proof.
  unfold target_dir, base_dir. rewrite output_dir_eq.
  apply resolve_app, dir_names_regular.
Qed.

Lemma target_file_eq (g : Generator) (env : Env) :
  target_file g env = target_dir g env ++ [file_name g].
Proof.
  unfold target_file, target_dir. rewrite output_path_eq.
  apply resolve_snoc, file_name_regular.
Qed.




(** ** The two file-system calls of a script *)

Lemma os_makedirs_eq (env : Env) (name : Path) (w : World) :
  os_makedirs env name w
  = makedirs_rev (env_cwd env) (reverse name)
      (MkWorld (w_doc w) (w_fs w) (w_trace w ++ [EvMakedirs (path_string name)])).
Proof. reflexivity. Qed.

Lemma doc_save_eq (env : Env) (path : Path) (w : World) :
  doc_save env path w
  = zip_write (env_cwd env) path (MkPackage (dos_time (env_now env)) (w_doc w))
      (MkWorld (w_doc w) (w_fs w) (w_trace w ++ [EvSave (path_string path)])).
Proof. reflexivity. Qed.

(** [os.makedirs] logs its call and, besides, only enters directories. *)
Lemma os_makedirs_frame (env : Env) (name : Path) (w : World) :
  let w' := outcome_world (os_makedirs env name w) in
  w_doc w' = w_doc w
  ∧ w_trace w' = w_trace w ++ [EvMakedirs (path_string name)]
  ∧ disk_full (w_fs w') = disk_full (w_fs w)
  ∧ fs_extends (nodes (w_fs w)) (nodes (w_fs w')).
Proof.
  rewrite os_makedirs_eq.
  destruct (preserves_makedirs_rev (env_cwd env) (reverse name)
              (MkWorld (w_doc w) (w_fs w) (w_trace w ++ [EvMakedirs (path_string name)])))
    as (Hd & Ht & Hf & He).
  done.
Qed.



(** ** A run on a file system that lets it through *)






(** ** Failing runs *)


Lemma os_makedirs_world (env : Env) (name : Path) (g : Generator) (fs : FS) (w1 : World) :
  outcome_world (os_makedirs env name (built_world g env fs)) = w1 →
  w_doc w1 = built_document g env
  ∧ w_trace w1 = [EvMakedirs (path_string name)]
  ∧ disk_full (w_fs w1) = disk_full fs
  ∧ fs_extends (nodes fs) (nodes (w_fs w1)).
Proof.
  intros <-. destruct (os_makedirs_frame env name (built_world g env fs))
    as (Hd & Ht & Hf & He). done.
Qed.






(** ** Successful runs *)

Lemma token_set_built (g : Generator) (env : Env) :
  token_set (built_document g env) = placeholders g.
Proof.
  destruct g; unfold token_set.
  - rewrite loan_document_tokens, date_paragraph_tokens. decide_by_vm.
  - rewrite welcome_document_tokens. decide_by_vm.
Qed.

(** C1.  The placeholder tokens found in the loan template, in any
    environment, are the seventeen listed names: each of them occurs in the
    text of some paragraph or table cell, and no other token occurs. *)
Theorem C1_loan_token_set (env : Env) :
  token_set (loan_document env) = loan_placeholders.
Proof. apply (token_set_built LoanTemplate). Qed.

(** C2.  The placeholder tokens found in the welcome letter are
    [firstName], [lastName] and [email], and no other token occurs. *)
Theorem C2_welcome_token_set (env : Env) :
  token_set (welcome_document env) = welcome_placeholders.
Proof. apply (token_set_built WelcomeLetter). Qed.






(** ** Two runs *)

Lemma same_day_strftime (t1 t2 : datetime) :
  same_day t1 t2 → strftime_B_d_Y t1 = strftime_B_d_Y t2.
Proof. intros (Hy & Hm & Hd). unfold strftime_B_d_Y. by rewrite Hy, Hm, Hd. Qed.


(** The loan template depends on its environment through the date text
    only. *)
Lemma loan_document_same_date (env1 env2 : Env) :
  strftime_B_d_Y (env_now env1) = strftime_B_d_Y (env_now env2) →
  loan_document env1 = loan_document env2.
Proof.
  intros Hdate.
  rewrite (loan_document_up_to_date env1 env2), (loan_document_up_to_date env2 env2).
  unfold date_paragraph. by rewrite Hdate.
Qed.

Lemma built_document_same_day (g : Generator) (env1 env2 : Env) :
  (g = LoanTemplate → same_day (env_now env1) (env_now env2)) →
  built_document g env1 = built_document g env2.
Proof.
  destruct g; intros Hday.
  - apply loan_document_same_date, same_day_strftime. by apply Hday.
  - apply welcome_document_constant.
Qed.



(** The arguments and the environment variables are not inputs of a run. *)
Lemma run_ignores_argv_environ (g : Generator) (dir : Path) (cwd : list string)
    (now : datetime) (argv1 argv2 : list string) (environ1 environ2 : gmap string string)
    (fs : FS) :
  run g (MkEnv dir cwd now argv1 environ1) fs = run g (MkEnv dir cwd now argv2 environ2) fs.
Proof.
  rewrite !run_steps.
  assert (Hdoc : built_document g (MkEnv dir cwd now argv1 environ1)
                 = built_document g (MkEnv dir cwd now argv2 environ2)).
  { apply built_document_same_day. intros _. by repeat split. }
  unfold built_world. rewrite Hdoc.
  destruct g; reflexivity.
Qed.





(** C7 (as amended).  The document a generator builds does not depend on
    the command line, the environment variables, the working directory or
    the place of the script; the welcome letter does not depend on
    anything, and the loan template depends on the current date only.  A
    whole run does not depend on the command line or the environment
    variables either. *)
Theorem C7_inputs_of_a_run (g : Generator) (env1 env2 : Env) :
  (g = LoanTemplate → same_day (env_now env1) (env_now env2)) →
  built_document g env1 = built_document g env2
  ∧ ∀ argv environ fs,
      run g (MkEnv (env_file_dir env1) (env_cwd env1) (env_now env1) argv environ) fs
      = run g env1 fs.
Proof.
  intros Hday. split; [by apply built_document_same_day|].
  intros argv environ fs. destruct env1 as [dir cwd now argv1 environ1]. simpl.
  apply run_ignores_argv_environ.
Qed.

Lemma C7_witness :
  loan_document sample_env = loan_document later_env
  ∧ welcome_document sample_env = welcome_document next_day_env.
Proof.
  split.
  - apply (C7_inputs_of_a_run LoanTemplate sample_env later_env).
    intros _. vm_compute. repeat split; reflexivity.
  - apply (C7_inputs_of_a_run WelcomeLetter sample_env next_day_env).
    intros H. discriminate H.
Defined.

(** C7, as stated, fails: two environments that differ in the current
    date only give two different loan templates. *)
Lemma C7_counterexample :
  env_file_dir sample_env = env_file_dir next_day_env
  ∧ env_cwd sample_env = env_cwd next_day_env
  ∧ env_argv sample_env = env_argv next_day_env
  ∧ env_environ sample_env = env_environ next_day_env
  ∧ loan_document sample_env ≠ loan_document next_day_env.
Proof.
  repeat (split; [reflexivity|]).
  intros H. apply (f_equal (λ d, body d !! 4)) in H.
  rewrite !loan_date_block in H. vm_compute in H. discriminate H.
Qed.

(** ** More on the built documents *)

(** X1.  Building either document returns normally in every world: every
    [rows[r].cells[c]] and [paragraphs[0]] the scripts index exists, so no
    [IndexError] is raised; whatever [doc] held before is replaced, and
    neither the file system nor the trace is touched. *)
Theorem X1_build_never_raises (g : Generator) (env : Env) (w : World) :
  build g env w
  = Returned () (MkWorld (built_document g env) (w_fs w) (w_trace w)).
Proof.
  destruct w as [d fs tr], g; expose_date env; vm_compute; reflexivity.
Qed.

(** The paragraphs and the tables of the loan template: only the fifth
    paragraph depends on the environment. *)
Lemma loan_paragraphs_up_to_date (env : Env) :
  document_paragraphs (loan_document env)
  = <[4 := date_paragraph (env_now env)]> (document_paragraphs (loan_document sample_env)).
Proof. expose_date env. vm_compute. reflexivity. Qed.

Lemma loan_tables_constant (env : Env) :
  tables (loan_document env) = tables (loan_document sample_env).
Proof. expose_date env. vm_compute. reflexivity. Qed.

Lemma date_paragraph_unsplit (t : datetime) : unsplit (date_paragraph t) = true.
Proof.
  unfold unsplit. apply bool_decide_eq_true_2.
  rewrite date_paragraph_tokens. unfold tokens_by_run, date_paragraph. simpl.
  rewrite app_nil_r. symmetry. apply scan_brace_free.
  by rewrite brace_free_app, brace_free_strftime.
Qed.

(** X2.  In both documents no placeholder is split over two runs: the
    tokens of every paragraph, table cells included, are the tokens of its
    runs; and every table cell holds exactly one paragraph made of exactly
    one run. *)
Theorem X2_placeholders_within_one_run (g : Generator) (env : Env) :
  Forall (λ p, unsplit p = true) (document_paragraphs (built_document g env))
  ∧ Forall (λ t, Forall (Forall (λ c, one_run_cell c = true)) (table_rows t))
      (tables (built_document g env)).
Proof.
  destruct g.
  - rewrite loan_paragraphs_up_to_date, loan_tables_constant. split.
    + apply Forall_insert; [decide_by_vm|apply date_paragraph_unsplit].
    + decide_by_vm.
  - rewrite (welcome_document_constant env sample_env). split; decide_by_vm.
Qed.

Lemma loan_top_level_tokens (env : Env) :
  top_level_tokens (loan_document env)
  = tokens_of (paragraph_text (date_paragraph (env_now env))).
Proof.
  rewrite <- (app_nil_r (tokens_of _)).
  expose_date env. vm_compute. reflexivity.
Qed.

(** X3.  Every table of both documents carries the style
    [Light Grid Accent 1], and each of its rows is a label cell, ending
    with a colon and free of placeholders, followed by a value cell with
    at least one placeholder.  Outside the tables the loan template holds
    no placeholder at all, whatever the date, and the welcome letter holds
    the two of its greeting line. *)
Theorem X3_placeholders_sit_in_value_cells (g : Generator) (env : Env) :
  Forall (λ t, table_style t = Some grid_style
               ∧ Forall (λ row, label_value_row row = true) (table_rows t))
    (tables (built_document g env))
  ∧ top_level_tokens (built_document g env)
    = match g with
      | LoanTemplate => []
      | WelcomeLetter => ["firstName"; "lastName"]
      end.
Proof.
  destruct g.
  - rewrite loan_tables_constant, loan_top_level_tokens, date_paragraph_tokens.
    split; [decide_by_vm|reflexivity].
  - rewrite (welcome_document_constant env sample_env). split; [decide_by_vm|vm_compute; reflexivity].
Qed.

(** X4.  Each of the seventeen placeholders occurs exactly once in the
    loan template.  The welcome letter names [firstName] and [lastName]
    twice, in the greeting and in the table, and [email] once. *)
Theorem X4_placeholder_occurrences (env : Env) :
  NoDup (document_tokens (loan_document env))
  ∧ length (document_tokens (loan_document env)) = 17
  ∧ document_tokens (welcome_document env)
    = ["firstName"; "lastName"; "firstName"; "lastName"; "email"].
Proof.
  rewrite loan_document_tokens, date_paragraph_tokens, welcome_document_tokens.
  split; [decide_by_vm|]. split; reflexivity.
Qed.

(** ** Filling *)

Lemma fill_from_outside (σ : string → string) (c c' : ascii) (rest : string) :
  fill_from σ None (String c (String c' rest))
  = if Ascii.eqb c "{" && Ascii.eqb c' "{"
    then fill_from σ (Some EmptyString) rest
    else String c (fill_from σ None (String c' rest)).
Proof. reflexivity. Qed.

Lemma fill_from_inside (σ : string → string) (name : string) (c c' : ascii) (rest : string) :
  fill_from σ (Some name) (String c (String c' rest))
  = if Ascii.eqb c "}" && Ascii.eqb c' "}"
    then σ name +:+ fill_from σ None rest
    else fill_from σ (Some (name +:+ String c EmptyString)) (String c' rest).
Proof. reflexivity. Qed.

(** Whether an opening brace survives filling does not depend on the
    values, as long as they hold none. *)
Lemma fill_from_values (σ : string → string) :
  (∀ name, brace_free (σ name) = true) →
  ∀ n s inside, String.length s < n →
    brace_free (fill_from σ inside s)
    = brace_free (fill_from (λ _, EmptyString) inside s).
Proof.
  intros Hσ. induction n as [|n IH]; intros s inside Hlen; [lia|].
  destruct s as [|c [|c' rest']]; [done| |].
  - destruct inside; reflexivity.
  - simpl in Hlen. destruct inside as [name|].
    + rewrite !fill_from_inside. destruct (Ascii.eqb c "}" && Ascii.eqb c' "}").
      * rewrite !brace_free_app, Hσ. simpl. apply IH. lia.
      * apply IH. simpl. lia.
    + rewrite !fill_from_outside. destruct (Ascii.eqb c "{" && Ascii.eqb c' "{").
      * apply IH. lia.
      * cbn [brace_free]. f_equal. apply IH. simpl. lia.
Qed.

(** A text without an opening brace is left as it is. *)
Lemma fill_brace_free (σ : string → string) (s : string) :
  brace_free s = true → fill σ s = s.
Proof.
  unfold fill. induction s as [|c s IH]; [done|].
  cbn [brace_free]. intros [Hc Hs]%andb_prop. apply negb_true_iff in Hc.
  destruct s as [|c' rest']; [done|].
  rewrite fill_from_outside, Hc. cbn [andb]. f_equal. by apply IH.
Qed.

(** X5.  When the values put in place of the placeholders hold no opening
    brace, filling any paragraph of either document leaves no opening
    brace behind, hence no placeholder: every opening brace of the
    documents belongs to a [{{name}}] that is closed. *)
Theorem X5_filling_leaves_no_placeholder
    (g : Generator) (env : Env) (σ : string → string) :
  (∀ name, brace_free (σ name) = true) →
  Forall (λ p, brace_free (fill σ (paragraph_text p)) = true
               ∧ tokens_of (fill σ (paragraph_text p)) = [])
    (document_paragraphs (built_document g env)).
Proof.
  intros Hσ.
  assert (Hall : Forall (λ p, brace_free (fill (λ _, EmptyString) (paragraph_text p)) = true)
                   (document_paragraphs (built_document g env))).
  { destruct g.
    - rewrite loan_paragraphs_up_to_date. apply Forall_insert; [decide_by_vm|].
      rewrite fill_brace_free; rewrite date_paragraph_text;
        by rewrite brace_free_app, brace_free_strftime.
    - rewrite (welcome_document_constant env sample_env). decide_by_vm. }
  eapply Forall_impl; [exact Hall|]. intros p Hp. cbv beta in Hp |- *.
  assert (Hfree : brace_free (fill σ (paragraph_text p)) = true).
  { unfold fill in *.
    by rewrite (fill_from_values σ Hσ (S (String.length (paragraph_text p)))) by lia. }
  split; [exact Hfree|]. by apply scan_brace_free.
Qed.

Lemma X5_witness :
  Forall (λ p, brace_free (fill (λ _, "n/a") (paragraph_text p)) = true
               ∧ tokens_of (fill (λ _, "n/a") (paragraph_text p)) = [])
    (document_paragraphs (loan_document sample_env)).
Proof.
  apply (X5_filling_leaves_no_placeholder LoanTemplate sample_env (λ _, "n/a")).
  intros name. reflexivity.
Defined.

(** ** The date line tells the day *)

Lemma append_separator_inj (c : ascii) (a b x y : string) :
  lacks c a = true → lacks c b = true →
  a +:+ String c x = b +:+ String c y → a = b ∧ x = y.
Proof.
  revert b. induction a as [|a0 a IH]; intros [|b0 b] Ha Hb Heq;
    rewrite ?append_cons in Heq; simpl in Ha, Hb.
  - by injection Heq as ->.
  - injection Heq as <- _. by rewrite Ascii.eqb_refl in Hb.
  - injection Heq as -> _. by rewrite Ascii.eqb_refl in Ha.
  - injection Heq as -> Heq.
    apply andb_prop in Ha as [_ Ha]. apply andb_prop in Hb as [_ Hb].
    by destruct (IH b Ha Hb Heq) as [-> ->].
Qed.

Lemma lacks_comma_uint (u : Decimal.uint) :
  lacks "," (NilEmpty.string_of_uint u) = true.
Proof. induction u; simpl; auto. Qed.

Lemma lacks_comma_two_digits (n : nat) : lacks "," (two_digits n) = true.
Proof.
  unfold two_digits, decimal. case_decide; [|apply lacks_comma_uint].
  change ("0" +:+ ?s) with (String "0" s). simpl. apply lacks_comma_uint.
Qed.

Lemma lacks_space_month (m : Month) : lacks " " (month_name m) = true.
Proof. by destruct m. Qed.

Lemma month_name_inj (m1 m2 : Month) : month_name m1 = month_name m2 → m1 = m2.
Proof. destruct m1, m2; intros H; first [reflexivity | discriminate H]. Qed.

Lemma string_of_uint_inj (u v : Decimal.uint) :
  NilEmpty.string_of_uint u = NilEmpty.string_of_uint v → u = v.
Proof.
  intros H. apply (f_equal NilEmpty.uint_of_string) in H.
  rewrite !NilEmpty.usu in H. by injection H.
Qed.

Lemma decimal_inj (n m : nat) : decimal n = decimal m → n = m.
Proof.
  intros H%string_of_uint_inj. apply (f_equal Nat.of_uint) in H.
  by rewrite !DecimalNat.Unsigned.of_to in H.
Qed.

Lemma two_digits_inj (n m : nat) : two_digits n = two_digits m → n = m.
Proof.
  assert (Hpad : ∀ k, ∃ u, two_digits k = NilEmpty.string_of_uint u ∧ Nat.of_uint u = k).
  { intros k. unfold two_digits, decimal. case_decide.
    - exists (Decimal.D0 (Nat.to_uint k)). split; [reflexivity|].
      change (Nat.of_uint (Decimal.D0 (Nat.to_uint k))) with (Nat.of_uint (Nat.to_uint k)).
      apply DecimalNat.Unsigned.of_to.
    - exists (Nat.to_uint k). split; [reflexivity|apply DecimalNat.Unsigned.of_to]. }
  destruct (Hpad n) as (u & -> & <-), (Hpad m) as (v & -> & <-).
  by intros ->%string_of_uint_inj.
Qed.

Lemma strftime_inj (t1 t2 : datetime) :
  strftime_B_d_Y t1 = strftime_B_d_Y t2 → same_day t1 t2.
Proof.
  unfold strftime_B_d_Y.
  change (?m +:+ " " +:+ ?d +:+ ", " +:+ ?y)
    with (m +:+ String " " (d +:+ String "," (String " " y))).
  intros H.
  apply append_separator_inj in H as [Hm H]; [|apply lacks_space_month ..].
  apply append_separator_inj in H as [Hd H]; [|apply lacks_comma_two_digits ..].
  injection H as Hy.
  repeat split; [by apply decimal_inj|by apply month_name_inj|by apply two_digits_inj].
Qed.

(** X6.  Two loan templates are the same document exactly when they are
    built on the same day of the same month and year: the date line, the
    full month name, the day on two digits and the year, tells the day. *)
Theorem X6_loan_template_tells_the_day (env1 env2 : Env) :
  loan_document env1 = loan_document env2
  ↔ same_day (env_now env1) (env_now env2).
Proof.
  split.
  - intros H. apply (f_equal (λ d, body d !! 4)) in H.
    rewrite !loan_date_block in H. injection H as H.
    apply strftime_inj. exact H.
  - intros H. by apply loan_document_same_date, same_day_strftime.
Qed.

(** ** The output tree hangs off the parent of the script directory *)

Lemma walk_parent (stack : list string) (p : Path) :
  walk stack (p ++ [".."]) = tail (walk stack p).
Proof.
  by rewrite walk_app.
Qed.

Lemma reverse_tail (l : list string) : reverse (tail l) = removelast (reverse l).
Proof. destruct l as [|x l]; [done|]. simpl. by rewrite reverse_cons, removelast_last. Qed.

Lemma base_dir_parent (env : Env) :
  base_dir env = removelast (resolve (env_cwd env) (env_file_dir env)).
Proof.
  unfold base_dir, resolve.
  destruct (env_file_dir env) as [|c rest].
  - simpl. apply reverse_tail.
  - rewrite <- app_comm_cons. destruct c as [|a c'].
    + by rewrite walk_parent, reverse_tail.
    + by rewrite (walk_parent _ (String a c' :: rest)), reverse_tail.
Qed.

(** X7.  Both scripts put their output under the directory ABOVE the one
    that holds the script: the resolved output file is the parent of the
    resolved script directory, followed by [server/files/templates] (loan)
    or [uploads/templates] (welcome) and the file name.  The directory
    handed to [os.makedirs] is the directory part of the path handed to
    [doc.save], for both scripts, although only the welcome script computes
    it with [os.path.dirname]. *)
Theorem X7_output_beside_script_directory (g : Generator) (env : Env) :
  let parent := removelast (resolve (env_cwd env) (env_file_dir env)) in
  target_dir g env = parent ++ dir_names g
  ∧ target_file g env = parent ++ dir_names g ++ [file_name g]
  ∧ os_path_dirname (output_path g env) = output_dir g env
  ∧ removelast (target_file g env) = target_dir g env.
Proof.
  intros parent. unfold parent.
  rewrite target_file_eq, target_dir_eq, base_dir_parent.
  split; [done|]. split; [by rewrite <- app_assoc|].
  split; [|by rewrite removelast_last].
  unfold os_path_dirname. by rewrite output_path_eq, removelast_last.
Qed.

(** ** What a run leaves alone *)













(** Writing the package touches the entry at its path only, removes
    nothing, and leaves the device as full as it was. *)
Lemma zip_write_elsewhere (cwd : list string) (p : Path) (pkg : Package) (w : World) :
  let w' := outcome_world (zip_write cwd p pkg w) in
  disk_full (w_fs w') = disk_full (w_fs w)
  ∧ (∀ k, k ≠ resolve cwd p → nodes (w_fs w') !! k = nodes (w_fs w) !! k)
  ∧ (is_Some (nodes (w_fs w) !! resolve cwd p) → is_Some (nodes (w_fs w') !! resolve cwd p)).
Proof.
  unfold zip_write.
  repeat (case_match; simpl; try done);
    (split; [done|]); (split; [intros k Hk; by rewrite lookup_insert_ne|]);
    intros _; rewrite lookup_insert_eq; eauto.
Qed.

Lemma doc_save_elsewhere (env : Env) (path : Path) (w : World) :
  let w' := outcome_world (doc_save env path w) in
  disk_full (w_fs w') = disk_full (w_fs w)
  ∧ (∀ k, k ≠ resolve (env_cwd env) path → nodes (w_fs w') !! k = nodes (w_fs w) !! k)
  ∧ (is_Some (nodes (w_fs w) !! resolve (env_cwd env) path) →
     is_Some (nodes (w_fs w') !! resolve (env_cwd env) path)).
Proof.
  rewrite doc_save_eq.
  exact (zip_write_elsewhere (env_cwd env) path
           (MkPackage (dos_time (env_now env)) (w_doc w))
           (MkWorld (w_doc w) (w_fs w) (w_trace w ++ [EvSave (path_string path)]))).
Qed.

(** The file system a run leaves is the one [os.makedirs] left, when the
    run ended there, or else the one [doc.save] left. *)
Lemma run_final_fs (g : Generator) (env : Env) (fs : FS) :
  let w1 := outcome_world (os_makedirs env (output_dir g env) (built_world g env fs)) in
  final_fs (run g env fs) = w_fs w1
  ∨ final_fs (run g env fs) = w_fs (outcome_world (doc_save env (output_path g env) w1)).
Proof.
  rewrite run_steps.
  destruct (os_makedirs env (output_dir g env) (built_world g env fs)) as [[] w1|e w1];
    simpl; [|by left].
  right. by destruct (doc_save env (output_path g env) w1) as [[] w2|e w2].
Qed.

Lemma run_elsewhere (g : Generator) (env : Env) (fs : FS) (k : list string) :
  k ≠ target_file g env →
  nodes (final_fs (run g env fs)) !! k
  = nodes (w_fs (outcome_world (os_makedirs env (output_dir g env) (built_world g env fs)))) !! k.
Proof.
  intros Hk. destruct (run_final_fs g env fs) as [->| ->]; [done|].
  by apply doc_save_elsewhere.
Qed.


Lemma file_name_inj (g g' : Generator) : file_name g = file_name g' → g = g'.
Proof. by destruct g, g'. Qed.

(** X9.  The two generators do not get in each other's way: their output
    files are different entries wherever the scripts are placed, and a run
    of one leaves whatever is stored at the other's output path as it
    is. *)
Theorem X9_generators_do_not_interfere (g g' : Generator) (env env' : Env) (fs : FS)
    (v : Node) :
  g ≠ g' →
  nodes fs !! target_file g' env' = Some v →
  target_file g env ≠ target_file g' env'
  ∧ nodes (final_fs (run g env fs)) !! target_file g' env' = Some v.
Proof.
  intros Hg Hv.
  assert (Hne : target_file g' env' ≠ target_file g env).
  { rewrite !target_file_eq. intros Heq. apply app_inj_tail in Heq as [_ Heq].
    apply Hg. symmetry. by apply file_name_inj. }
  split; [done|].
  rewrite run_elsewhere by done.
  destruct (os_makedirs_world env (output_dir g env) g fs _ eq_refl) as (_ & _ & _ & Hext).
  destruct (Hext (target_file g' env')) as [->|[Hnone _]]; congruence.
Qed.

Lemma X9_witness :
  let fs := final_fs (run LoanTemplate sample_env sample_fs) in
  target_file WelcomeLetter sample_env ≠ target_file LoanTemplate sample_env
  ∧ nodes (final_fs (run WelcomeLetter sample_env fs)) !! target_file LoanTemplate sample_env
    = Some (File true (Complete (saved_package LoanTemplate sample_env))).
Proof.
  apply (X9_generators_do_not_interfere WelcomeLetter LoanTemplate sample_env sample_env).
  - discriminate.
  - vm_compute. reflexivity.
Defined.

(** ** Running a generator again *)



Lemma output_same_names (g : Generator) (env env' : Env) :
  env_file_dir env' = env_file_dir env →
  output_dir g env' = output_dir g env
  ∧ output_path g env' = output_path g env
  ∧ report_lines g env' = report_lines g env.
Proof.
  intros Hdir.
  assert (Hod : output_dir g env' = output_dir g env) by (by rewrite !output_dir_eq, Hdir).
  assert (Hop : output_path g env' = output_path g env) by (by rewrite !output_path_eq, Hod).
  split; [done|]. split; [done|].
  destruct g; unfold report_lines; by rewrite Hop.
Qed.




(** ** A full device *)





(** ** An absolute script path *)

Lemma resolve_isabs (cwd1 cwd2 : list string) (p : Path) :
  os_path_isabs p → resolve cwd1 p = resolve cwd2 p.
Proof. destruct p as [|[|a c] rest]; intros H; by try discriminate H. Qed.

Lemma os_mkdir_isabs (cwd1 cwd2 : list string) (p : Path) (w : World) :
  (p ≠ [] → os_path_isabs p) → os_mkdir cwd1 p w = os_mkdir cwd2 p w.
Proof.
  intros Hp. unfold os_mkdir. case_decide; [done|].
  by rewrite (resolve_isabs cwd1 cwd2 p) by auto.
Qed.

Lemma os_path_exists_isabs (cwd1 cwd2 : list string) (p : Path) (fs : FS) :
  (p ≠ [] → os_path_isabs p) → os_path_exists cwd1 p fs = os_path_exists cwd2 p fs.
Proof.
  intros Hp. unfold os_path_exists. case_bool_decide; [|done].
  by rewrite (resolve_isabs cwd1 cwd2 p) by auto.
Qed.

Lemma os_path_isdir_isabs (cwd1 cwd2 : list string) (p : Path) (fs : FS) :
  (p ≠ [] → os_path_isabs p) → os_path_isdir cwd1 p fs = os_path_isdir cwd2 p fs.
Proof.
  intros Hp. unfold os_path_isdir. case_bool_decide; [|done].
  by rewrite (resolve_isabs cwd1 cwd2 p) by auto.
Qed.

Lemma makedirs_body_isabs (cwd1 cwd2 : list string) (r1 r2 : Py unit)
    (head : Path) (tail : string) (name : Path) (w : World) :
  (∀ w, r1 w = r2 w) →
  (head ≠ [] → os_path_isabs head) →
  (name ≠ [] → os_path_isabs name) →
  makedirs_body cwd1 r1 head tail name w = makedirs_body cwd2 r2 head tail name w.
Proof.
  intros Hr Hhead Hname.
  assert (Hfinal : ∀ w,
    try_except (os_mkdir cwd1 name) is_OSError
      (λ e w', if os_path_isdir cwd1 name (w_fs w') then Returned () w' else Raised e w') w
    = try_except (os_mkdir cwd2 name) is_OSError
      (λ e w', if os_path_isdir cwd2 name (w_fs w') then Returned () w' else Raised e w') w).
  { intros w0. unfold try_except. rewrite (os_mkdir_isabs cwd1 cwd2) by done.
    destruct (os_mkdir cwd2 name w0) as [?|e w']; [done|].
    destruct (is_OSError e); [|done].
    by rewrite (os_path_isdir_isabs cwd1 cwd2) by done. }
  unfold makedirs_body. rewrite (os_path_exists_isabs cwd1 cwd2) by done.
  destruct (_ && _); [|apply Hfinal].
  unfold bind, try_except. rewrite Hr.
  destruct (r2 w) as [[] w'|e w'].
  - case_decide; [done|apply Hfinal].
  - destruct (is_FileExistsError e); [|done].
    unfold ret. case_decide; [done|apply Hfinal].
Qed.

Lemma isabs_reverse (l : list string) :
  last l = Some "" → os_path_isabs (reverse l).
Proof. intros H. unfold os_path_isabs. by rewrite head_reverse. Qed.

Lemma makedirs_rev_isabs (cwd1 cwd2 : list string) (rname : list string) :
  (rname ≠ [] → last rname = Some "") →
  ∀ w, makedirs_rev cwd1 rname w = makedirs_rev cwd2 rname w.
Proof.
  assert (H : ∀ n rname, length rname < n →
                (rname ≠ [] → last rname = Some "") →
                ∀ w, makedirs_rev cwd1 rname w = makedirs_rev cwd2 rname w).
  { clear rname. induction n as [|n IH]; intros rname Hlen Hlast w; [lia|].
    assert (Hwhole : reverse rname ≠ [] → os_path_isabs (reverse rname)).
    { intros Hne. apply isabs_reverse, Hlast. intros ->. by apply Hne. }
    destruct rname as [|c rh].
    - by apply makedirs_body_isabs.
    - assert (Hrh : rh ≠ [] → last rh = Some "").
      { intros Hne. rewrite last_cons in Hlast.
        destruct (last rh) as [y|] eqn:Hy; [by apply Hlast|].
        apply last_None in Hy. done. }
      destruct c as [|a c'].
      + destruct rh as [|t rh'].
        * apply (makedirs_body_isabs cwd1 cwd2 (makedirs_rev cwd1 []) (makedirs_rev cwd2 []));
            [|done|exact Hwhole].
          intros w0. apply IH; [simpl in *; lia|done].
        * assert (Hrh' : rh' ≠ [] → last rh' = Some "").
          { intros Hne. specialize (Hrh ltac:(done)). rewrite last_cons in Hrh.
            destruct (last rh') as [y|] eqn:Hy; [done|].
            apply last_None in Hy. done. }
          apply (makedirs_body_isabs cwd1 cwd2 (makedirs_rev cwd1 rh') (makedirs_rev cwd2 rh'));
            [| |exact Hwhole].
          -- intros w0. apply IH; [simpl in *; lia|done].
          -- intros Hne. apply isabs_reverse, Hrh'. intros ->. by apply Hne.
      + apply (makedirs_body_isabs cwd1 cwd2 (makedirs_rev cwd1 rh) (makedirs_rev cwd2 rh));
          [| |exact Hwhole].
        * intros w0. apply IH; [simpl in *; lia|done].
        * intros Hne. apply isabs_reverse, Hrh. intros ->. by apply Hne. }
  intros Hlast. apply (H (S (length rname))); [lia|done].
Qed.

Lemma zip_write_isabs (cwd1 cwd2 : list string) (p : Path) (pkg : Package) (w : World) :
  os_path_isabs p → zip_write cwd1 p pkg w = zip_write cwd2 p pkg w.
Proof. intros Hp. unfold zip_write. by rewrite (resolve_isabs cwd1 cwd2 p). Qed.

Lemma os_makedirs_isabs (env1 env2 : Env) (name : Path) (w : World) :
  os_path_isabs name → os_makedirs env1 name w = os_makedirs env2 name w.
Proof.
  intros Habs. rewrite !os_makedirs_eq. apply makedirs_rev_isabs.
  intros _. by rewrite last_reverse.
Qed.

Lemma doc_save_isabs (env1 env2 : Env) (path : Path) (w : World) :
  os_path_isabs path → env_now env1 = env_now env2 →
  doc_save env1 path w = doc_save env2 path w.
Proof. intros Habs Hnow. rewrite !doc_save_eq, Hnow. by apply zip_write_isabs. Qed.

Lemma output_isabs (g : Generator) (env : Env) :
  os_path_isabs (env_file_dir env) →
  os_path_isabs (output_dir g env) ∧ os_path_isabs (output_path g env).
Proof.
  rewrite output_path_eq, output_dir_eq. unfold os_path_isabs.
  by destruct (env_file_dir env).
Qed.

(** X12.  When the script directory is given by an absolute path, the
    working directory is no input of the run: the same entries are
    written, the same lines are printed and the same status is returned
    from any working directory. *)
Theorem X12_working_directory_is_no_input (g : Generator) (env1 env2 : Env) (fs : FS) :
  os_path_isabs (env_file_dir env1) →
  env_file_dir env2 = env_file_dir env1 →
  env_now env2 = env_now env1 →
  run g env2 fs = run g env1 fs.
Proof.
  intros Habs Hdir Hnow.
  destruct (output_same_names g env1 env2 Hdir) as (Hod & Hop & Hr).
  destruct (output_isabs g env1 Habs) as [Hod_abs Hop_abs].
  rewrite !run_steps. unfold built_world.
  rewrite (built_document_same_day g env2 env1) by (intros _; by rewrite Hnow).
  rewrite Hod, Hop, Hr.
  rewrite (os_makedirs_isabs env2 env1) by done.
  destruct (os_makedirs env1 (output_dir g env1) _) as [[] w1|e w1]; [|done].
  by rewrite (doc_save_isabs env2 env1) by done.
Qed.

Lemma X12_witness :
  run LoanTemplate
    (MkEnv [""; "repo"; "scripts"] [] (MkDatetime 2026 November 3 17 27 0) [] ∅) sample_fs
  = run LoanTemplate sample_env sample_fs.
Proof.
  apply (X12_working_directory_is_no_input LoanTemplate sample_env
           (MkEnv [""; "repo"; "scripts"] [] (MkDatetime 2026 November 3 17 27 0) [] ∅));
    reflexivity.
Defined.

(** ** What success needs *)








(** ** What a failure names *)








